(** * Configurations for resistive processing units

    A shallow embedding of [aihwkit/simulator/configs/configs.py]: the four
    dataclasses [FloatingPointRPUConfig], [SingleRPUConfig],
    [UnitCellRPUConfig] and [InferenceRPUConfig], their capability queries
    [requires_diffusion] / [requires_decay], their [as_bindings] method and
    the constructor that [@dataclass] generates for the inference
    configuration.

    Python floats are IEEE 754 binary64 numbers and are represented by
    [spec_float]; dataclasses are records; a call that may raise returns a
    [result]. *)

From Stdlib Require Import ZArith QArith Qpower List String Bool Lia.
From Stdlib Require Import Floats.SpecFloat.
From Stdlib Require Import Sorting.Permutation.
Import ListNotations.

Local Open Scope string_scope.
Local Open Scope list_scope.

(** ** Python floats *)

Module PyFloat.

Definition t : Type := spec_float.

(** The literal [0.0]. *)
Definition zero : t := S754_zero false.

(** [x > y] on floats: false as soon as one side is a NaN. *)
Definition gt (x y : t) : bool := SFltb y x.

(** The number a float denotes, on the extended rational line; a NaN
    denotes none. *)
Inductive extended : Type :=
| NegInfinity
| Finite (q : Q)
| PosInfinity.

Definition value (x : t) : option extended :=
  match x with
  | S754_nan => None
  | S754_infinity true => Some NegInfinity
  | S754_infinity false => Some PosInfinity
  | S754_zero _ => Some (Finite 0)
  | S754_finite s m e =>
      let mag := (inject_Z (Zpos m) * Qpower 2 e)%Q in
      Some (Finite (if s then Qopp mag else mag))
  end.

(** "Strictly positive", read on the denoted number. *)
Definition strictly_positive (x : t) : Prop :=
  match value x with
  | Some PosInfinity => True
  | Some (Finite q) => (0 < q)%Q
  | _ => False
  end.

End PyFloat.

(** ** Outcome of a call that may raise *)

Inductive exn : Type :=
| TypeError (message : string)
| TranslationError (message : string).

Inductive result (A : Type) : Type :=
| Ok (a : A)
| Raise (e : exn).

Arguments Ok {A} a.
Arguments Raise {A} e.

Definition succeeds {A : Type} (r : result A) : Prop :=
  exists a, r = Ok a.

Definition fails {A : Type} (r : result A) : Prop :=
  exists e, r = Raise e.

(** ** Device parameter classes ([aihwkit.simulator.configs.devices])

    Modelled from the spec: the device classes are imported by configs.py
    and declared in another module. The configurations read two attributes of a device, [diffusion] and
    [lifetime], and the attribute [unit_cell_devices] of a unit cell. *)

Module FloatingPointDevice.
Record t : Type := mk { diffusion : PyFloat.t; lifetime : PyFloat.t }.
End FloatingPointDevice.

(** [PulsedDevice] is the base class of the pulsed devices;
    [ConstantStepDevice] is one of them. *)
Module PulsedDevice.
Record t : Type := mk { diffusion : PyFloat.t; lifetime : PyFloat.t }.

Definition set_diffusion (x : PyFloat.t) (d : t) : t :=
  mk x (lifetime d).

Definition set_lifetime (x : PyFloat.t) (d : t) : t :=
  mk (diffusion d) x.
End PulsedDevice.

Module IdealDevice.
Record t : Type := mk { diffusion : PyFloat.t; lifetime : PyFloat.t }.
End IdealDevice.

Module UnitCellDevice.
Record t : Type := mk { unit_cell_devices : list PulsedDevice.t }.
End UnitCellDevice.

(** ** Parameter classes ([aihwkit.simulator.configs.utils])

    Modelled from the spec: [IOParameters] describes the non-idealities of
    a signal pass (noise, bound, perfection flag), [UpdateParameters] the
    pulse scheme of the weight update, with [PulseType.NONE] for "no
    pulsing". configs.py names the attribute [is_perfect] and the attribute
    [pulse_type]. *)

Module IOParameters.
Record t : Type :=
  mk { is_perfect : bool; noise : PyFloat.t; bound : PyFloat.t }.

Definition set_is_perfect (b : bool) (io : t) : t :=
  mk b (noise io) (bound io).
End IOParameters.

Module PulseType.
Inductive t : Type :=
| NONE
| Scheme (name : string).
End PulseType.

Module UpdateParameters.
Record t : Type := mk { pulse_type : PulseType.t }.

Definition set_pulse_type (p : PulseType.t) (u : t) : t := mk p.
End UpdateParameters.

(** Modelled from the spec: the noise model, the drift compensation, the
    weight clip and the weight modifier parameters are external
    collaborators that a configuration stores and never inspects. Such an
    object is represented by the name of its class and its numeric
    settings. *)
Module Collaborator.
Record t : Type :=
  mk { class_name : string; settings : list (string * PyFloat.t) }.
End Collaborator.

Definition BaseNoiseModel : Type := Collaborator.t.
Definition BaseDriftCompensation : Type := Collaborator.t.
Definition WeightClipParameter : Type := Collaborator.t.
Definition WeightModifierParameter : Type := Collaborator.t.

(** Modelled from the spec: the value each default factory of configs.py
    returns when it is called without arguments. The classes are declared
    outside configs.py, so their defaults are parameters of the
    development. *)
Record Factories : Type := {
  new_FloatingPointDevice : FloatingPointDevice.t;
  new_ConstantStepDevice : PulsedDevice.t;
  new_UnitCellDevice : UnitCellDevice.t;
  new_IdealDevice : IdealDevice.t;
  new_IOParameters : IOParameters.t;
  new_UpdateParameters : UpdateParameters.t;
  new_PCMLikeNoiseModel : BaseNoiseModel;
  new_GlobalDriftCompensation : BaseDriftCompensation;
  new_WeightClipParameter : WeightClipParameter;
  new_WeightModifierParameter : WeightModifierParameter
}.

(** [IOParameters(is_perfect=True)]: the keyword replaces one field of the
    default instance. *)
Definition perfect_io (F : Factories) : IOParameters.t :=
  IOParameters.set_is_perfect true (new_IOParameters F).

(** [UpdateParameters(pulse_type=PulseType.NONE)]. *)
Definition no_pulse_update (F : Factories) : UpdateParameters.t :=
  UpdateParameters.set_pulse_type PulseType.NONE (new_UpdateParameters F).

(** ** Native bindings ([aihwkit.simulator.rpu_base.devices])

    Modelled from the spec: the native analog-tile parameter object holds
    the device-physics parameters (flattened, a unit cell in its order),
    the forward and backward I/O parameters and the update parameters. *)

Module devices.

Record DeviceParameter : Type :=
  mkDevice { diffusion : PyFloat.t; lifetime : PyFloat.t }.

Record AnalogTileParameter : Type :=
  mkTile {
    device_parameters : list DeviceParameter;
    forward_io : IOParameters.t;
    backward_io : IOParameters.t;
    update : UpdateParameters.t
  }.

(** The native classes a configuration class can name as its
    [bindings_class]. *)
Inductive binding_class : Type :=
| AnalogTileParameterClass
| OtherBindingClass (name : string).

End devices.

(** ** The bindings translator ([tile_parameters_to_bindings])

    The translator is duck typed: it is handed the configuration itself
    and reads its attributes [device], [forward], [backward] and
    [update]. *)

Inductive device_object : Type :=
| PulsedObject (d : PulsedDevice.t)
| UnitCellObject (d : UnitCellDevice.t)
| IdealObject (d : IdealDevice.t).

Record tile_parameters : Type :=
  mkParams {
    params_device : device_object;
    params_forward : IOParameters.t;
    params_backward : IOParameters.t;
    params_update : UpdateParameters.t
  }.

Definition pulsed_to_bindings (d : PulsedDevice.t) : devices.DeviceParameter :=
  devices.mkDevice (PulsedDevice.diffusion d) (PulsedDevice.lifetime d).

Definition ideal_to_bindings (d : IdealDevice.t) : devices.DeviceParameter :=
  devices.mkDevice (IdealDevice.diffusion d) (IdealDevice.lifetime d).

(** Modelled from the spec: [tile_parameters_to_bindings] is declared in
    [aihwkit.simulator.configs.utils], outside configs.py. It is a pure
    function of the attributes it reads; it flattens the sub-devices of a
    unit cell in their order and rejects a unit cell without sub-devices.
    The checks that the nested parameter classes and the native engine make
    on the values are no part of it: [Translation.checked_translator] below
    puts them in front. *)
Definition tile_parameters_to_bindings (p : tile_parameters)
  : result devices.AnalogTileParameter :=
  let tile ds :=
    devices.mkTile ds (params_forward p) (params_backward p) (params_update p)
  in
  match params_device p with
  | PulsedObject d => Ok (tile [pulsed_to_bindings d])
  | IdealObject d => Ok (tile [ideal_to_bindings d])
  | UnitCellObject cell =>
      match UnitCellDevice.unit_cell_devices cell with
      | [] => Raise (TranslationError "empty unit cell")
      | ds => Ok (tile (map pulsed_to_bindings ds))
      end
  end.

(** ** Class attributes

    [bindings_class] is annotated [ClassVar]: it belongs to the class, is
    no dataclass field and no constructor parameter. *)

Inductive config_class : Type :=
| FloatingPointRPUConfigClass
| SingleRPUConfigClass
| UnitCellRPUConfigClass
| InferenceRPUConfigClass.

Definition class_vars (c : config_class)
  : list (string * devices.binding_class) :=
  match c with
  | FloatingPointRPUConfigClass => []
  | SingleRPUConfigClass =>
      [("bindings_class", devices.AnalogTileParameterClass)]
  | UnitCellRPUConfigClass =>
      [("bindings_class", devices.AnalogTileParameterClass)]
  | InferenceRPUConfigClass =>
      [("bindings_class", devices.AnalogTileParameterClass)]
  end.

Fixpoint lookup {A : Type} (name : string) (l : list (string * A))
  : option A :=
  match l with
  | [] => None
  | (k, v) :: l' => if String.eqb k name then Some v else lookup name l'
  end.

(** [cls.name] for a class variable: [None] stands for AttributeError. *)
Definition class_getattr (c : config_class) (name : string)
  : option devices.binding_class :=
  lookup name (class_vars c).

(** The names of the dataclass fields of a class, in declaration order;
    class variables are not among them. *)
Definition field_names (c : config_class) : list string :=
  match c with
  | FloatingPointRPUConfigClass => ["device"]
  | SingleRPUConfigClass => ["device"; "forward"; "backward"; "update"]
  | UnitCellRPUConfigClass => ["device"; "forward"; "backward"; "update"]
  | InferenceRPUConfigClass =>
      ["forward"; "noise_model"; "drift_compensation"; "clip"; "modifier";
       "device"; "backward"; "update"]
  end.

(** ** [FloatingPointRPUConfig] *)

Module FloatingPointRPUConfig.

Record t : Type := mk { device : FloatingPointDevice.t }.

(** The generated constructor: an omitted argument is replaced by the
    value of the default factory. *)
Definition new (F : Factories) (device : option FloatingPointDevice.t) : t :=
  mk (match device with
      | Some d => d
      | None => new_FloatingPointDevice F
      end).

Definition requires_diffusion (self : t) : bool :=
  PyFloat.gt (FloatingPointDevice.diffusion (device self)) PyFloat.zero.

Definition requires_decay (self : t) : bool :=
  PyFloat.gt (FloatingPointDevice.lifetime (device self)) PyFloat.zero.

End FloatingPointRPUConfig.

(** ** Statements run against a configuration object

    The dataclasses are not frozen: between its construction and its last
    use an object receives attribute assignments and method calls. A method
    call leaves the object as it is and produces an answer. *)

Inductive call : Type :=
| RequiresDiffusion
| RequiresDecay
| AsBindings.

Inductive answer : Type :=
| Bool (b : bool)
| Bindings (r : result devices.AnalogTileParameter).

(** ** [SingleRPUConfig] *)

Module SingleRPUConfig.

Record t : Type :=
  mk {
    device : PulsedDevice.t;
    forward : IOParameters.t;
    backward : IOParameters.t;
    update : UpdateParameters.t
  }.

Definition new (F : Factories)
  (device : option PulsedDevice.t) (forward backward : option IOParameters.t)
  (update : option UpdateParameters.t) : t :=
  mk (match device with Some d => d | None => new_ConstantStepDevice F end)
     (match forward with Some io => io | None => new_IOParameters F end)
     (match backward with Some io => io | None => new_IOParameters F end)
     (match update with Some u => u | None => new_UpdateParameters F end).

Definition as_bindings (self : t) : result devices.AnalogTileParameter :=
  tile_parameters_to_bindings
    (mkParams (PulsedObject (device self))
       (forward self) (backward self) (update self)).

Definition requires_diffusion (self : t) : bool :=
  PyFloat.gt (PulsedDevice.diffusion (device self)) PyFloat.zero.

Definition requires_decay (self : t) : bool :=
  PyFloat.gt (PulsedDevice.lifetime (device self)) PyFloat.zero.

(** Attribute assignments: [self.device = d], ..., and the assignments to
    the attributes of the device, [self.device.diffusion = x] and
    [self.device.lifetime = x]. *)
Inductive mutation : Type :=
| SetDevice (d : PulsedDevice.t)
| SetForward (io : IOParameters.t)
| SetBackward (io : IOParameters.t)
| SetUpdate (u : UpdateParameters.t)
| SetDeviceDiffusion (x : PyFloat.t)
| SetDeviceLifetime (x : PyFloat.t).

Definition mutate (m : mutation) (self : t) : t :=
  match m with
  | SetDevice d => mk d (forward self) (backward self) (update self)
  | SetForward io => mk (device self) io (backward self) (update self)
  | SetBackward io => mk (device self) (forward self) io (update self)
  | SetUpdate u => mk (device self) (forward self) (backward self) u
  | SetDeviceDiffusion x =>
      mk (PulsedDevice.set_diffusion x (device self))
         (forward self) (backward self) (update self)
  | SetDeviceLifetime x =>
      mk (PulsedDevice.set_lifetime x (device self))
         (forward self) (backward self) (update self)
  end.

Definition invoke (c : call) (self : t) : answer :=
  match c with
  | RequiresDiffusion => Bool (requires_diffusion self)
  | RequiresDecay => Bool (requires_decay self)
  | AsBindings => Bindings (as_bindings self)
  end.

Inductive statement : Type :=
| Mutate (m : mutation)
| Call (c : call).

(** Runs the statements in order; returns the answers of the calls, in
    order, and the object at the end. *)
Fixpoint run (prog : list statement) (self : t) : list answer * t :=
  match prog with
  | [] => ([], self)
  | Mutate m :: rest => run rest (mutate m self)
  | Call c :: rest =>
      let (answers, final) := run rest self in
      (invoke c self :: answers, final)
  end.

Definition answers (prog : list statement) (self : t) : list answer :=
  fst (run prog self).

Definition final (prog : list statement) (self : t) : t :=
  snd (run prog self).

(** A statement that leaves the diffusion coefficient of the device as it
    is. *)
Definition keeps_diffusion (s : statement) : bool :=
  match s with
  | Mutate (SetDevice _) => false
  | Mutate (SetDeviceDiffusion _) => false
  | _ => true
  end.

Definition is_call (s : statement) : bool :=
  match s with
  | Call _ => true
  | Mutate _ => false
  end.

End SingleRPUConfig.

(** ** [UnitCellRPUConfig] *)

(** The builtin [any] on a list of booleans. *)
Fixpoint any (l : list bool) : bool :=
  match l with
  | [] => false
  | b :: l' => if b then true else any l'
  end.

Module UnitCellRPUConfig.

Record t : Type :=
  mk {
    device : UnitCellDevice.t;
    forward : IOParameters.t;
    backward : IOParameters.t;
    update : UpdateParameters.t
  }.

Definition new (F : Factories)
  (device : option UnitCellDevice.t) (forward backward : option IOParameters.t)
  (update : option UpdateParameters.t) : t :=
  mk (match device with Some d => d | None => new_UnitCellDevice F end)
     (match forward with Some io => io | None => new_IOParameters F end)
     (match backward with Some io => io | None => new_IOParameters F end)
     (match update with Some u => u | None => new_UpdateParameters F end).

Definition as_bindings (self : t) : result devices.AnalogTileParameter :=
  tile_parameters_to_bindings
    (mkParams (UnitCellObject (device self))
       (forward self) (backward self) (update self)).

Definition requires_diffusion (self : t) : bool :=
  any (map (fun dev => PyFloat.gt (PulsedDevice.diffusion dev) PyFloat.zero)
         (UnitCellDevice.unit_cell_devices (device self))).

Definition requires_decay (self : t) : bool :=
  any (map (fun dev => PyFloat.gt (PulsedDevice.lifetime dev) PyFloat.zero)
         (UnitCellDevice.unit_cell_devices (device self))).

End UnitCellRPUConfig.

(** ** [InferenceRPUConfig] *)

Module InferenceRPUConfig.

Record t : Type :=
  mk {
    forward : IOParameters.t;
    noise_model : BaseNoiseModel;
    drift_compensation : BaseDriftCompensation;
    clip : WeightClipParameter;
    modifier : WeightModifierParameter;
    device : IdealDevice.t;
    backward : IOParameters.t;
    update : UpdateParameters.t
  }.

(** The dataclass fields, in declaration order, and their annotations. *)
Inductive field : Type :=
| F_forward
| F_noise_model
| F_drift_compensation
| F_clip
| F_modifier
| F_device
| F_backward
| F_update.

Definition field_type (f : field) : Type :=
  match f with
  | F_forward => IOParameters.t
  | F_noise_model => BaseNoiseModel
  | F_drift_compensation => BaseDriftCompensation
  | F_clip => WeightClipParameter
  | F_modifier => WeightModifierParameter
  | F_device => IdealDevice.t
  | F_backward => IOParameters.t
  | F_update => UpdateParameters.t
  end.

Definition field_name (f : field) : string :=
  match f with
  | F_forward => "forward"
  | F_noise_model => "noise_model"
  | F_drift_compensation => "drift_compensation"
  | F_clip => "clip"
  | F_modifier => "modifier"
  | F_device => "device"
  | F_backward => "backward"
  | F_update => "update"
  end.

(** [init=False] on [device], [backward] and [update]: the generated
    constructor has no parameter of these names. *)
Definition in_init (f : field) : bool :=
  match f with
  | F_device | F_backward | F_update => false
  | _ => true
  end.

(** *** The generated constructor

    Its parameters are the fields with [in_init], in order, each with a
    default. A call gives positional arguments, bound to the first
    parameters, and keyword arguments. *)

Inductive positional : Type :=
| Args0
| Args1 (a1 : IOParameters.t)
| Args2 (a1 : IOParameters.t) (a2 : BaseNoiseModel)
| Args3 (a1 : IOParameters.t) (a2 : BaseNoiseModel)
    (a3 : BaseDriftCompensation)
| Args4 (a1 : IOParameters.t) (a2 : BaseNoiseModel)
    (a3 : BaseDriftCompensation) (a4 : WeightClipParameter)
| Args5 (a1 : IOParameters.t) (a2 : BaseNoiseModel)
    (a3 : BaseDriftCompensation) (a4 : WeightClipParameter)
    (a5 : WeightModifierParameter)
| ArgsMore (a1 : IOParameters.t) (a2 : BaseNoiseModel)
    (a3 : BaseDriftCompensation) (a4 : WeightClipParameter)
    (a5 : WeightModifierParameter) (extra : nat).

Inductive keyword : Type :=
| Keyword (f : field) (v : field_type f)
| OtherKeyword (name : string).

(** The parameters bound so far. *)
Record bound : Type :=
  mkBound {
    b_forward : option IOParameters.t;
    b_noise_model : option BaseNoiseModel;
    b_drift_compensation : option BaseDriftCompensation;
    b_clip : option WeightClipParameter;
    b_modifier : option WeightModifierParameter
  }.

Definition bind_positional (args : positional) : bound :=
  match args with
  | Args0 => mkBound None None None None None
  | Args1 a1 => mkBound (Some a1) None None None None
  | Args2 a1 a2 => mkBound (Some a1) (Some a2) None None None
  | Args3 a1 a2 a3 => mkBound (Some a1) (Some a2) (Some a3) None None
  | Args4 a1 a2 a3 a4 => mkBound (Some a1) (Some a2) (Some a3) (Some a4) None
  | Args5 a1 a2 a3 a4 a5
  | ArgsMore a1 a2 a3 a4 a5 _ =>
      mkBound (Some a1) (Some a2) (Some a3) (Some a4) (Some a5)
  end.

Definition too_many (args : positional) : bool :=
  match args with
  | ArgsMore _ _ _ _ _ _ => true
  | _ => false
  end.

Definition unexpected_keyword {A : Type} (name : string) : result A :=
  Raise (TypeError ("unexpected keyword argument " ++ name)).

Definition multiple_values {A : Type} (name : string) : result A :=
  Raise (TypeError ("multiple values for argument " ++ name)).

Definition bind_keyword (k : keyword) (b : bound) : result bound :=
  match k with
  | OtherKeyword name => unexpected_keyword name
  | Keyword F_forward v =>
      match b_forward b with
      | Some _ => multiple_values (field_name F_forward)
      | None =>
          Ok (mkBound (Some v) (b_noise_model b) (b_drift_compensation b)
                (b_clip b) (b_modifier b))
      end
  | Keyword F_noise_model v =>
      match b_noise_model b with
      | Some _ => multiple_values (field_name F_noise_model)
      | None =>
          Ok (mkBound (b_forward b) (Some v) (b_drift_compensation b)
                (b_clip b) (b_modifier b))
      end
  | Keyword F_drift_compensation v =>
      match b_drift_compensation b with
      | Some _ => multiple_values (field_name F_drift_compensation)
      | None =>
          Ok (mkBound (b_forward b) (b_noise_model b) (Some v)
                (b_clip b) (b_modifier b))
      end
  | Keyword F_clip v =>
      match b_clip b with
      | Some _ => multiple_values (field_name F_clip)
      | None =>
          Ok (mkBound (b_forward b) (b_noise_model b)
                (b_drift_compensation b) (Some v) (b_modifier b))
      end
  | Keyword F_modifier v =>
      match b_modifier b with
      | Some _ => multiple_values (field_name F_modifier)
      | None =>
          Ok (mkBound (b_forward b) (b_noise_model b)
                (b_drift_compensation b) (b_clip b) (Some v))
      end
  | Keyword F_device _ => unexpected_keyword (field_name F_device)
  | Keyword F_backward _ => unexpected_keyword (field_name F_backward)
  | Keyword F_update _ => unexpected_keyword (field_name F_update)
  end.

Fixpoint bind_keywords (kwargs : list keyword) (b : bound) : result bound :=
  match kwargs with
  | [] => Ok b
  | k :: rest =>
      match bind_keyword k b with
      | Ok b' => bind_keywords rest b'
      | Raise e => Raise e
      end
  end.

Definition or_default {A : Type} (o : option A) (default : A) : A :=
  match o with
  | Some a => a
  | None => default
  end.

(** A call of the class [InferenceRPUConfig]: the arguments are bound, then
    every field is set, the three [init=False] fields from their default
    factories. *)
Definition new (F : Factories) (args : positional) (kwargs : list keyword)
  : result t :=
  match bind_keywords kwargs (bind_positional args) with
  | Raise e => Raise e
  | Ok b =>
      if too_many args
      then Raise (TypeError "too many positional arguments")
      else
        Ok (mk (or_default (b_forward b) (new_IOParameters F))
              (or_default (b_noise_model b) (new_PCMLikeNoiseModel F))
              (or_default (b_drift_compensation b)
                 (new_GlobalDriftCompensation F))
              (or_default (b_clip b) (new_WeightClipParameter F))
              (or_default (b_modifier b) (new_WeightModifierParameter F))
              (new_IdealDevice F)
              (perfect_io F)
              (no_pulse_update F))
  end.

(** A keyword argument named after one of the three forced fields. *)
Definition names_forced_field (k : keyword) : bool :=
  match k with
  | Keyword f _ => negb (in_init f)
  | OtherKeyword _ => false
  end.

(** *** Methods *)

Definition as_bindings (self : t) : result devices.AnalogTileParameter :=
  tile_parameters_to_bindings
    (mkParams (IdealObject (device self))
       (forward self) (backward self) (update self)).

Definition requires_diffusion (self : t) : bool :=
  PyFloat.gt (IdealDevice.diffusion (device self)) PyFloat.zero.

Definition requires_decay (self : t) : bool :=
  PyFloat.gt (IdealDevice.lifetime (device self)) PyFloat.zero.

(** *** Attribute assignment

    The class is a plain [@dataclass], without [frozen=True]:
    [self.<field> = v] succeeds for each of the eight fields. *)
Definition setattr (f : field) : field_type f -> t -> t :=
  match f with
  | F_forward => fun v self =>
      mk v (noise_model self) (drift_compensation self) (clip self)
        (modifier self) (device self) (backward self) (update self)
  | F_noise_model => fun v self =>
      mk (forward self) v (drift_compensation self) (clip self)
        (modifier self) (device self) (backward self) (update self)
  | F_drift_compensation => fun v self =>
      mk (forward self) (noise_model self) v (clip self)
        (modifier self) (device self) (backward self) (update self)
  | F_clip => fun v self =>
      mk (forward self) (noise_model self) (drift_compensation self) v
        (modifier self) (device self) (backward self) (update self)
  | F_modifier => fun v self =>
      mk (forward self) (noise_model self) (drift_compensation self)
        (clip self) v (device self) (backward self) (update self)
  | F_device => fun v self =>
      mk (forward self) (noise_model self) (drift_compensation self)
        (clip self) (modifier self) v (backward self) (update self)
  | F_backward => fun v self =>
      mk (forward self) (noise_model self) (drift_compensation self)
        (clip self) (modifier self) (device self) v (update self)
  | F_update => fun v self =>
      mk (forward self) (noise_model self) (drift_compensation self)
        (clip self) (modifier self) (device self) (backward self) v
  end.

Definition invoke (c : call) (self : t) : answer :=
  match c with
  | RequiresDiffusion => Bool (requires_diffusion self)
  | RequiresDecay => Bool (requires_decay self)
  | AsBindings => Bindings (as_bindings self)
  end.

Inductive statement : Type :=
| SetAttr (f : field) (v : field_type f)
| Call (c : call).

Definition step (s : statement) (self : t) : t :=
  match s with
  | SetAttr f v => setattr f v self
  | Call _ => self
  end.

(** The object after the statements, run in order. *)
Definition run (prog : list statement) (self : t) : t :=
  fold_left (fun obj s => step s obj) prog self.

(** A statement that assigns neither [backward] nor [update]. *)
Definition respects_read_only (s : statement) : bool :=
  match s with
  | SetAttr F_backward _ => false
  | SetAttr F_update _ => false
  | _ => true
  end.

End InferenceRPUConfig.

(** ** Specification vocabulary *)

(** A device profile "disables" diffusion (decay) when its diffusion
    coefficient (lifetime) is not strictly positive. *)
Definition disabled (x : PyFloat.t) : Prop :=
  ~ PyFloat.strictly_positive x.

(** Modelled from the spec: "default device profiles disable both" diffusion
    and decay. The default profiles are the values of the device factories,
    declared in [aihwkit.simulator.configs.devices]. *)
Definition default_profiles_disabled (F : Factories) : Prop :=
  (disabled (FloatingPointDevice.diffusion (new_FloatingPointDevice F)) /\
   disabled (FloatingPointDevice.lifetime (new_FloatingPointDevice F))) /\
  (disabled (PulsedDevice.diffusion (new_ConstantStepDevice F)) /\
   disabled (PulsedDevice.lifetime (new_ConstantStepDevice F))) /\
  (disabled (IdealDevice.diffusion (new_IdealDevice F)) /\
   disabled (IdealDevice.lifetime (new_IdealDevice F))) /\
  Forall
    (fun dev =>
       disabled (PulsedDevice.diffusion dev) /\
       disabled (PulsedDevice.lifetime dev))
    (UnitCellDevice.unit_cell_devices (new_UnitCellDevice F)).

(** ** Concrete values for the examples *)

(** The binary64 number 0.5, that is 2^52 * 2^-53. *)
Definition half : PyFloat.t := S754_finite false 4503599627370496 (-53).

Definition plain_io : IOParameters.t :=
  IOParameters.mk false PyFloat.zero PyFloat.zero.

Definition still_device : PulsedDevice.t :=
  PulsedDevice.mk PyFloat.zero PyFloat.zero.

Definition nothing : Collaborator.t := Collaborator.mk "object" [].

Definition example_factories : Factories :=
  {| new_FloatingPointDevice := FloatingPointDevice.mk PyFloat.zero PyFloat.zero;
     new_ConstantStepDevice := still_device;
     new_UnitCellDevice := UnitCellDevice.mk [still_device];
     new_IdealDevice := IdealDevice.mk PyFloat.zero PyFloat.zero;
     new_IOParameters := plain_io;
     new_UpdateParameters := UpdateParameters.mk (PulseType.Scheme "stochastic");
     new_PCMLikeNoiseModel := nothing;
     new_GlobalDriftCompensation := nothing;
     new_WeightClipParameter := nothing;
     new_WeightModifierParameter := nothing |}.

Definition example_single : SingleRPUConfig.t :=
  SingleRPUConfig.new example_factories None None None None.

Definition empty_unit_cell : UnitCellRPUConfig.t :=
  UnitCellRPUConfig.new example_factories
    (Some (UnitCellDevice.mk [])) None None None.

Definition imperfect_io : IOParameters.t :=
  IOParameters.mk false half half.

Definition example_inference : InferenceRPUConfig.t :=
  InferenceRPUConfig.mk imperfect_io nothing nothing nothing nothing
    (IdealDevice.mk PyFloat.zero PyFloat.zero)
    (perfect_io example_factories) (no_pulse_update example_factories).

(** Statements that leave [backward] and [update] alone. *)
Definition example_statements : list InferenceRPUConfig.statement :=
  [InferenceRPUConfig.SetAttr InferenceRPUConfig.F_forward plain_io;
   InferenceRPUConfig.Call AsBindings;
   InferenceRPUConfig.SetAttr InferenceRPUConfig.F_device
     (IdealDevice.mk half PyFloat.zero);
   InferenceRPUConfig.Call RequiresDiffusion].

(** ** Vocabulary for the generated constructor and for assignments *)

Module InferenceCall.
Import InferenceRPUConfig.

Definition field_eq_dec (f g : field) : {f = g} + {f <> g}.
Proof. decide equality. Defined.

(** The parameters of the generated constructor, in order: the fields
    declared without [init=False]. *)
Definition parameters : list field :=
  [F_forward; F_noise_model; F_drift_compensation; F_clip; F_modifier].

(** How many positional arguments a call gives. *)
Definition positional_count (args : positional) : nat :=
  match args with
  | Args0 => 0
  | Args1 _ => 1
  | Args2 _ _ => 2
  | Args3 _ _ _ => 3
  | Args4 _ _ _ _ => 4
  | Args5 _ _ _ _ _ => 5
  | ArgsMore _ _ _ _ _ extra => 5 + S extra
  end.

(** The parameters that receive a positional argument. *)
Definition bound_by_position (args : positional) : list field :=
  firstn (positional_count args) parameters.

(** The parameters that the keyword arguments name, in order. *)
Definition keyword_fields (kwargs : list keyword) : list field :=
  flat_map
    (fun k =>
       match k with
       | Keyword f _ => [f]
       | OtherKeyword _ => []
       end)
    kwargs.

(** A keyword argument named after a parameter of the constructor. *)
Definition names_parameter (k : keyword) : bool :=
  match k with
  | Keyword f _ => in_init f
  | OtherKeyword _ => false
  end.

(** The value bound to a parameter so far; the three forced fields are no
    parameters and have no slot. *)
Definition slot (f : field) : bound -> option (field_type f) :=
  match f with
  | F_forward => b_forward
  | F_noise_model => b_noise_model
  | F_drift_compensation => b_drift_compensation
  | F_clip => b_clip
  | F_modifier => b_modifier
  | F_device => fun _ => None
  | F_backward => fun _ => None
  | F_update => fun _ => None
  end.

(** [self.<field>]. *)
Definition getattr (f : field) : t -> field_type f :=
  match f with
  | F_forward => forward
  | F_noise_model => noise_model
  | F_drift_compensation => drift_compensation
  | F_clip => clip
  | F_modifier => modifier
  | F_device => device
  | F_backward => backward
  | F_update => update
  end.

(** The value of the [default_factory] each field is declared with. *)
Definition default_factory (F : Factories) (f : field) : field_type f :=
  match f with
  | F_forward => new_IOParameters F
  | F_noise_model => new_PCMLikeNoiseModel F
  | F_drift_compensation => new_GlobalDriftCompensation F
  | F_clip => new_WeightClipParameter F
  | F_modifier => new_WeightModifierParameter F
  | F_device => new_IdealDevice F
  | F_backward => perfect_io F
  | F_update => no_pulse_update F
  end.

(** A statement that does not assign [device]. *)
Definition keeps_device (s : statement) : bool :=
  match s with
  | SetAttr F_device _ => false
  | _ => true
  end.

End InferenceCall.

(** A statement on a single-device configuration that leaves the lifetime
    of the device as it is. *)
Definition keeps_lifetime (s : SingleRPUConfig.statement) : bool :=
  match s with
  | SingleRPUConfig.Mutate (SingleRPUConfig.SetDevice _) => false
  | SingleRPUConfig.Mutate (SingleRPUConfig.SetDeviceLifetime _) => false
  | _ => true
  end.

(** A unit-cell configuration over the given sub-devices. *)
Definition unit_cell_of (cell : list PulsedDevice.t)
  (io_forward io_backward : IOParameters.t) (u : UpdateParameters.t)
  : UnitCellRPUConfig.t :=
  UnitCellRPUConfig.mk (UnitCellDevice.mk cell) io_forward io_backward u.

Definition decaying_device : PulsedDevice.t :=
  PulsedDevice.mk PyFloat.zero half.

(** ** Translation as a call

    [as_bindings] calls [tile_parameters_to_bindings] on the object and
    returns what the call returns. A callable sees its argument and the
    rest of the program state, here a type [W], and may change the
    latter. *)

Module Translation.

Definition translator (W : Type) : Type :=
  tile_parameters -> W -> result devices.AnalogTileParameter * W.

(** Modelled from the spec: the nested parameter classes check their own
    values and the native engine rejects the combinations of fields it
    cannot represent. Both checks are declared outside configs.py; they
    are a parameter, [Some e] standing for the error [e] they raise. *)
Definition validation : Type := tile_parameters -> option exn.

(** Modelled from the spec: [tile_parameters_to_bindings] as a callable of
    [aihwkit.simulator.configs.utils]. It is pure, reading and changing
    nothing of the program state; an error of the checks is propagated;
    parameters that pass are laid out by [tile_parameters_to_bindings]
    above. *)
Definition checked_translator {W : Type} (V : validation) : translator W :=
  fun p w =>
    (match V p with
     | Some e => Raise e
     | None => tile_parameters_to_bindings p
     end,
     w).

(** The object as the callee sees it. *)
Definition parameters_of (self : SingleRPUConfig.t) : tile_parameters :=
  mkParams (PulsedObject (SingleRPUConfig.device self))
    (SingleRPUConfig.forward self) (SingleRPUConfig.backward self)
    (SingleRPUConfig.update self).

(** [SingleRPUConfig.as_bindings] with its callee explicit: the object is
    handed over and the result of the callee returned; the method keeps no
    state of its own. *)
Definition as_bindings {W : Type} (T : translator W)
  (self : SingleRPUConfig.t) (w : W)
  : result devices.AnalogTileParameter * W :=
  T (parameters_of self) w.

(** A callee whose result depends on its argument alone and that leaves
    the program state as it is. *)
Definition pure {W : Type} (T : translator W) : Prop :=
  exists f, forall p w, T p w = (f p, w).

(** A callee that is not pure: it raises on every second call. *)
Definition flaky_translator : translator bool :=
  fun p w =>
    (if w then Raise (TranslationError "busy")
     else tile_parameters_to_bindings p,
     negb w).

End Translation.

(** Checks that reject a perfect forward pass. *)
Definition example_validation : Translation.validation :=
  fun p =>
    if IOParameters.is_perfect (params_forward p)
    then Some (TranslationError "forward pass cannot be perfect")
    else None.

(** An object built apart from [example_single], with the same fields. *)
Definition example_single_again : SingleRPUConfig.t :=
  SingleRPUConfig.mk still_device plain_io plain_io
    (UpdateParameters.mk (PulseType.Scheme "stochastic")).

(** * Properties *)

(** ** Floats *)

Lemma gt_zero_strictly_positive (x : PyFloat.t) :
  PyFloat.gt x PyFloat.zero = true <-> PyFloat.strictly_positive x.
Proof.
  unfold PyFloat.gt, PyFloat.zero, PyFloat.strictly_positive, SFltb.
  destruct x as [s | s | | s m e]; cbn.
  - split; [discriminate | intros H; exfalso; exact (Qlt_irrefl 0 H)].
  - destruct s; split; (discriminate || easy).
  - split; (discriminate || easy).
  - assert (Hmag : (0 < inject_Z (Zpos m) * Qpower 2 e)%Q).
    { apply Qmult_lt_0_compat.
      - reflexivity.
      - apply Qpower_0_lt. reflexivity. }
    destruct s; cbn.
    + split; [discriminate |].
      intros H. exfalso. apply (Qopp_lt_compat 0) in Hmag.
      exact (Qlt_irrefl _ (Qlt_trans _ _ _ H Hmag)).
    + split; [intros _; exact Hmag | reflexivity].
Qed.

Lemma gt_zero_disabled (x : PyFloat.t) :
  disabled x -> PyFloat.gt x PyFloat.zero = false.
Proof.
  intros H. destruct (PyFloat.gt x PyFloat.zero) eqn:E; [| reflexivity].
  exfalso. apply H, gt_zero_strictly_positive, E.
Qed.

Lemma any_map_exists {A : Type} (f : A -> bool) (l : list A) :
  any (map f l) = true <-> exists x, In x l /\ f x = true.
Proof.
  induction l as [| a l IH]; cbn.
  - split; [discriminate | intros [x [[] _]]].
  - destruct (f a) eqn:Ea.
    + split; [intros _; exists a; auto | reflexivity].
    + rewrite IH. split.
      * intros [x [Hin Hx]]. exists x; auto.
      * intros [x [[-> | Hin] Hx]]; [congruence | exists x; auto].
Qed.

(** ** Capability queries *)

(** C4: on every floating-point configuration, [requires_diffusion] is true
    exactly when the diffusion coefficient of the device is strictly
    positive, and [requires_decay] exactly when its lifetime is. *)
Theorem floating_point_requires_iff_positive (self : FloatingPointRPUConfig.t) :
  (FloatingPointRPUConfig.requires_diffusion self = true <->
   PyFloat.strictly_positive
     (FloatingPointDevice.diffusion (FloatingPointRPUConfig.device self))) /\
  (FloatingPointRPUConfig.requires_decay self = true <->
   PyFloat.strictly_positive
     (FloatingPointDevice.lifetime (FloatingPointRPUConfig.device self))).
Proof.
  split; apply gt_zero_strictly_positive.
Qed.

(** C3: on every unit-cell configuration, [requires_decay] is true exactly
    when some sub-device of the unit cell has a strictly positive lifetime,
    and [requires_diffusion] exactly when some sub-device has a strictly
    positive diffusion coefficient. *)
Theorem unit_cell_requires_iff_some_device (self : UnitCellRPUConfig.t) :
  let cell :=
    UnitCellDevice.unit_cell_devices (UnitCellRPUConfig.device self) in
  (UnitCellRPUConfig.requires_decay self = true <->
   exists dev, In dev cell /\
     PyFloat.strictly_positive (PulsedDevice.lifetime dev)) /\
  (UnitCellRPUConfig.requires_diffusion self = true <->
   exists dev, In dev cell /\
     PyFloat.strictly_positive (PulsedDevice.diffusion dev)).
Proof.
  cbv zeta.
  unfold UnitCellRPUConfig.requires_decay, UnitCellRPUConfig.requires_diffusion.
  split; rewrite any_map_exists; split; intros [dev [Hin Hdev]]; exists dev;
    (split; [exact Hin | now apply gt_zero_strictly_positive]).
Qed.

(** C10: on a unit-cell configuration without sub-devices both queries
    return false. *)
Theorem unit_cell_empty_requires_nothing (self : UnitCellRPUConfig.t) :
  UnitCellDevice.unit_cell_devices (UnitCellRPUConfig.device self) = [] ->
  UnitCellRPUConfig.requires_diffusion self = false /\
  UnitCellRPUConfig.requires_decay self = false.
Proof.
  intros Hempty.
  unfold UnitCellRPUConfig.requires_diffusion, UnitCellRPUConfig.requires_decay.
  rewrite Hempty. split; reflexivity.
Qed.

Lemma unit_cell_empty_requires_nothing_example :
  UnitCellDevice.unit_cell_devices (UnitCellRPUConfig.device empty_unit_cell)
    = [] /\
  UnitCellRPUConfig.requires_diffusion empty_unit_cell = false /\
  UnitCellRPUConfig.requires_decay empty_unit_cell = false.
Proof.
  split; [reflexivity |].
  apply (unit_cell_empty_requires_nothing empty_unit_cell). reflexivity.
Defined.

(** ** Translation *)

(** C6: [as_bindings] on a unit-cell configuration without sub-devices
    raises. *)
Theorem unit_cell_empty_as_bindings_fails (self : UnitCellRPUConfig.t) :
  UnitCellDevice.unit_cell_devices (UnitCellRPUConfig.device self) = [] ->
  fails (UnitCellRPUConfig.as_bindings self).
Proof.
  intros Hempty.
  unfold UnitCellRPUConfig.as_bindings, tile_parameters_to_bindings. cbn.
  rewrite Hempty. eexists. reflexivity.
Qed.

Lemma unit_cell_empty_as_bindings_fails_example :
  UnitCellDevice.unit_cell_devices (UnitCellRPUConfig.device empty_unit_cell)
    = [] /\
  fails (UnitCellRPUConfig.as_bindings empty_unit_cell).
Proof.
  split; [reflexivity |].
  apply (unit_cell_empty_as_bindings_fails empty_unit_cell). reflexivity.
Defined.

(** ** Class-level marker *)

(** C7: the single-device, unit-cell and inference classes carry the same
    class variable [bindings_class], the analog-tile parameter class; the
    floating-point class carries none; in no class is it a field of the
    instances. *)
Theorem bindings_class_marker :
  class_getattr SingleRPUConfigClass "bindings_class"
    = Some devices.AnalogTileParameterClass /\
  class_getattr UnitCellRPUConfigClass "bindings_class"
    = class_getattr SingleRPUConfigClass "bindings_class" /\
  class_getattr InferenceRPUConfigClass "bindings_class"
    = class_getattr SingleRPUConfigClass "bindings_class" /\
  class_getattr FloatingPointRPUConfigClass "bindings_class" = None /\
  forall c, ~ In "bindings_class" (field_names c).
Proof.
  repeat split; intros c Hin.
  destruct c; cbn in Hin;
    repeat (destruct Hin as [Hin | Hin]; [discriminate Hin |]);
    exact Hin.
Qed.

(** ** Default construction *)

(** C8: when the default device profiles disable diffusion and decay, each
    of the four classes constructs without arguments, and on the instance
    [requires_diffusion] and [requires_decay] return false. *)
Theorem default_construction_requires_nothing (F : Factories) :
  default_profiles_disabled F ->
  (FloatingPointRPUConfig.requires_diffusion
     (FloatingPointRPUConfig.new F None) = false /\
   FloatingPointRPUConfig.requires_decay
     (FloatingPointRPUConfig.new F None) = false) /\
  (SingleRPUConfig.requires_diffusion
     (SingleRPUConfig.new F None None None None) = false /\
   SingleRPUConfig.requires_decay
     (SingleRPUConfig.new F None None None None) = false) /\
  (UnitCellRPUConfig.requires_diffusion
     (UnitCellRPUConfig.new F None None None None) = false /\
   UnitCellRPUConfig.requires_decay
     (UnitCellRPUConfig.new F None None None None) = false) /\
  (exists self,
     InferenceRPUConfig.new F InferenceRPUConfig.Args0 [] = Ok self /\
     InferenceRPUConfig.requires_diffusion self = false /\
     InferenceRPUConfig.requires_decay self = false).
Proof.
  intros [[Hf1 Hf2] [[Hs1 Hs2] [[Hi1 Hi2] Hcell]]].
  repeat split; try (now apply gt_zero_disabled).
  - unfold UnitCellRPUConfig.requires_diffusion. cbn.
    induction Hcell as [| dev l [Hd _] _ IH]; cbn; [reflexivity |].
    rewrite (gt_zero_disabled _ Hd). exact IH.
  - unfold UnitCellRPUConfig.requires_decay. cbn.
    induction Hcell as [| dev l [_ Hl] _ IH]; cbn; [reflexivity |].
    rewrite (gt_zero_disabled _ Hl). exact IH.
  - eexists. split; [reflexivity |].
    split; now apply gt_zero_disabled.
Qed.

Lemma example_profiles_disabled : default_profiles_disabled example_factories.
Proof.
  assert (Hzero : disabled PyFloat.zero).
  { intros H. exact (Qlt_irrefl 0 H). }
  unfold default_profiles_disabled. cbn.
  repeat split; try exact Hzero.
  repeat constructor; exact Hzero.
Defined.

Lemma default_construction_requires_nothing_example :
  default_profiles_disabled example_factories /\
  SingleRPUConfig.requires_diffusion example_single = false /\
  SingleRPUConfig.requires_decay example_single = false /\
  UnitCellRPUConfig.requires_diffusion
    (UnitCellRPUConfig.new example_factories None None None None) = false.
Proof.
  split; [exact example_profiles_disabled |].
  destruct (default_construction_requires_nothing example_factories
              example_profiles_disabled)
    as [_ [[Hdiffusion Hdecay] [[Hcell _] _]]].
  repeat split; assumption.
Defined.

(** ** Queries and translation across assignments *)

Module SingleRuns.
Import SingleRPUConfig.

Lemma run_app (p q : list statement) (self : t) :
  run (p ++ q) self =
  (answers p self ++ answers q (final p self), final q (final p self)).
Proof.
  unfold answers, final. revert self.
  induction p as [| s p IH]; intros self; cbn.
  - now destruct (run q self).
  - destruct s as [m | c].
    + apply IH.
    + rewrite IH. destruct (run p self) as [a1 s1]. reflexivity.
Qed.

Lemma answers_app (p q : list statement) (self : t) :
  answers (p ++ q) self = answers p self ++ answers q (final p self).
Proof.
  unfold answers at 1. now rewrite run_app.
Qed.

Lemma final_app (p q : list statement) (self : t) :
  final (p ++ q) self = final q (final p self).
Proof.
  unfold final at 1. now rewrite run_app.
Qed.

Lemma final_calls (prog : list statement) (self : t) :
  forallb is_call prog = true -> final prog self = self.
Proof.
  unfold final. induction prog as [| s prog IH]; cbn; [reflexivity |].
  destruct s as [m | c]; cbn; [discriminate |].
  intros H. specialize (IH H). now destruct (run prog self).
Qed.

Lemma final_keeps_diffusion (prog : list statement) (self : t) :
  forallb keeps_diffusion prog = true ->
  PulsedDevice.diffusion (device (final prog self)) =
  PulsedDevice.diffusion (device self).
Proof.
  unfold final. revert self.
  induction prog as [| s prog IH]; intros self; cbn; [reflexivity |].
  destruct s as [m | c]; cbn.
  - destruct m; cbn; try discriminate; intros H; now rewrite (IH _ H).
  - intros H. specialize (IH self H). now destruct (run prog self).
Qed.

End SingleRuns.

(** C5: on a single-device configuration [requires_diffusion] reads the
    device at the time of the call. Assigning a strictly positive diffusion
    coefficient makes it true and assigning zero makes it false again; a
    query after any run of statements answers for the device as it then is;
    and it answers for the last coefficient assigned, whatever assignments
    and calls that leave the coefficient alone came after. *)
Theorem single_requires_diffusion_not_cached :
  (forall (self : SingleRPUConfig.t) (x : PyFloat.t),
     PyFloat.strictly_positive x ->
     SingleRPUConfig.answers
       [SingleRPUConfig.Mutate (SingleRPUConfig.SetDeviceDiffusion x);
        SingleRPUConfig.Call RequiresDiffusion;
        SingleRPUConfig.Mutate (SingleRPUConfig.SetDeviceDiffusion PyFloat.zero);
        SingleRPUConfig.Call RequiresDiffusion] self
     = [Bool true; Bool false]) /\
  (forall (prog : list SingleRPUConfig.statement) (self : SingleRPUConfig.t),
     SingleRPUConfig.answers
       (prog ++ [SingleRPUConfig.Call RequiresDiffusion]) self
     = SingleRPUConfig.answers prog self ++
       [Bool (PyFloat.gt
                (PulsedDevice.diffusion
                   (SingleRPUConfig.device (SingleRPUConfig.final prog self)))
                PyFloat.zero)]) /\
  (forall (before after : list SingleRPUConfig.statement) (x : PyFloat.t)
          (self : SingleRPUConfig.t),
     forallb SingleRPUConfig.keeps_diffusion after = true ->
     let assigned :=
       before ++
       SingleRPUConfig.Mutate (SingleRPUConfig.SetDeviceDiffusion x) :: after in
     SingleRPUConfig.answers
       (assigned ++ [SingleRPUConfig.Call RequiresDiffusion]) self
     = SingleRPUConfig.answers assigned self ++
       [Bool (PyFloat.gt x PyFloat.zero)]).
Proof.
  assert (Hquery :
    forall prog self,
      SingleRPUConfig.answers
        (prog ++ [SingleRPUConfig.Call RequiresDiffusion]) self
      = SingleRPUConfig.answers prog self ++
        [Bool (PyFloat.gt
                 (PulsedDevice.diffusion
                    (SingleRPUConfig.device (SingleRPUConfig.final prog self)))
                 PyFloat.zero)]).
  { intros prog self. rewrite SingleRuns.answers_app. reflexivity. }
  split; [| split].
  - intros self x Hx.
    apply gt_zero_strictly_positive in Hx.
    unfold SingleRPUConfig.answers. cbn.
    unfold SingleRPUConfig.requires_diffusion. cbn.
    rewrite Hx. reflexivity.
  - exact Hquery.
  - intros before after x self Hafter assigned.
    rewrite Hquery. do 3 f_equal.
    unfold assigned.
    rewrite SingleRuns.final_app.
    change (SingleRPUConfig.final
              (SingleRPUConfig.Mutate (SingleRPUConfig.SetDeviceDiffusion x)
               :: after)
              (SingleRPUConfig.final before self))
      with (SingleRPUConfig.final after
              (SingleRPUConfig.mutate (SingleRPUConfig.SetDeviceDiffusion x)
                 (SingleRPUConfig.final before self))).
    rewrite (SingleRuns.final_keeps_diffusion _ _ Hafter). reflexivity.
Qed.

Lemma single_requires_diffusion_not_cached_example :
  PyFloat.strictly_positive half /\
  SingleRPUConfig.answers
    [SingleRPUConfig.Mutate (SingleRPUConfig.SetDeviceDiffusion half);
     SingleRPUConfig.Call RequiresDiffusion;
     SingleRPUConfig.Mutate (SingleRPUConfig.SetDeviceDiffusion PyFloat.zero);
     SingleRPUConfig.Call RequiresDiffusion] example_single
  = [Bool true; Bool false].
Proof.
  assert (Hhalf : PyFloat.strictly_positive half) by reflexivity.
  split; [exact Hhalf |].
  exact (proj1 single_requires_diffusion_not_cached example_single half Hhalf).
Defined.

Lemma checked_translator_pure {W : Type} (V : Translation.validation) :
  Translation.pure (@Translation.checked_translator W V).
Proof.
  exists (fun p =>
            match V p with
            | Some e => Raise e
            | None => tile_parameters_to_bindings p
            end).
  intros p w. reflexivity.
Qed.

Lemma parameters_of_fields (s1 s2 : SingleRPUConfig.t) :
  SingleRPUConfig.device s1 = SingleRPUConfig.device s2 ->
  SingleRPUConfig.forward s1 = SingleRPUConfig.forward s2 ->
  SingleRPUConfig.backward s1 = SingleRPUConfig.backward s2 ->
  SingleRPUConfig.update s1 = SingleRPUConfig.update s2 ->
  Translation.parameters_of s1 = Translation.parameters_of s2.
Proof.
  unfold Translation.parameters_of. intros -> -> -> ->. reflexivity.
Qed.

(** With a pure callee, [as_bindings] answers by the four fields alone and
    leaves the program state as it is. *)
Lemma as_bindings_with_pure_callee {W : Type} (T : Translation.translator W)
  (s1 s2 : SingleRPUConfig.t) (w1 w2 : W) :
  Translation.pure T ->
  Translation.parameters_of s1 = Translation.parameters_of s2 ->
  fst (Translation.as_bindings T s1 w1) = fst (Translation.as_bindings T s2 w2)
  /\ snd (Translation.as_bindings T s1 w1) = w1.
Proof.
  intros [f Hf] Hsame. unfold Translation.as_bindings.
  rewrite !Hf, Hsame. split; reflexivity.
Qed.

(** With a callee that is not pure the second of two calls in a row can
    differ from the first. *)
Lemma as_bindings_with_flaky_callee :
  let first :=
    Translation.as_bindings Translation.flaky_translator example_single false in
  fst (Translation.as_bindings Translation.flaky_translator example_single
         (snd first))
  <> fst first.
Proof.
  cbn. discriminate.
Qed.

(** C9: on single-device configurations [as_bindings], calling the
    translator with its checks, is a function of the four fields. A second
    call right after the first returns the same outcome as the first; a
    call on any object with the same four fields, in any program state,
    returns that outcome too; the call leaves the program state as it is;
    and the outcome is the error of the checks when they reject, else the
    native object holding the device, [forward], [backward] and [update]
    of the configuration. *)
Theorem single_as_bindings_same_content (W : Type)
  (V : Translation.validation) (s1 s2 : SingleRPUConfig.t) (w1 w2 : W) :
  SingleRPUConfig.device s1 = SingleRPUConfig.device s2 ->
  SingleRPUConfig.forward s1 = SingleRPUConfig.forward s2 ->
  SingleRPUConfig.backward s1 = SingleRPUConfig.backward s2 ->
  SingleRPUConfig.update s1 = SingleRPUConfig.update s2 ->
  let T := @Translation.checked_translator W V in
  let first := Translation.as_bindings T s1 w1 in
  fst (Translation.as_bindings T s1 (snd first)) = fst first /\
  fst (Translation.as_bindings T s2 w2) = fst first /\
  snd first = w1 /\
  fst first =
    match V (Translation.parameters_of s1) with
    | Some e => Raise e
    | None =>
        Ok (devices.mkTile [pulsed_to_bindings (SingleRPUConfig.device s1)]
              (SingleRPUConfig.forward s1) (SingleRPUConfig.backward s1)
              (SingleRPUConfig.update s1))
    end.
Proof.
  intros Hdevice Hforward Hbackward Hupdate T first.
  pose proof (checked_translator_pure (W := W) V) as Hpure.
  pose proof (parameters_of_fields s1 s2 Hdevice Hforward Hbackward Hupdate)
    as Hsame.
  destruct (as_bindings_with_pure_callee T s1 s2 w1 w2 Hpure Hsame)
    as [Hother Hstate].
  destruct (as_bindings_with_pure_callee T s1 s1 (snd first) w1 Hpure eq_refl)
    as [Hagain _].
  split; [| split; [| split]].
  - exact Hagain.
  - symmetry. exact Hother.
  - exact Hstate.
  - unfold first, T, Translation.as_bindings, Translation.checked_translator.
    cbn. destruct (V (Translation.parameters_of s1)); reflexivity.
Qed.

Lemma single_as_bindings_same_content_example :
  SingleRPUConfig.device example_single
    = SingleRPUConfig.device example_single_again /\
  fst (Translation.as_bindings
         (Translation.checked_translator example_validation)
         example_single_again 7%nat)
  = fst (Translation.as_bindings
           (Translation.checked_translator example_validation)
           example_single 0%nat).
Proof.
  split; [reflexivity |].
  exact (proj1 (proj2
    (single_as_bindings_same_content nat example_validation
       example_single example_single_again 0%nat 7%nat
       eq_refl eq_refl eq_refl eq_refl))).
Defined.

(** ** The forced fields of the inference configuration *)

Module InferenceFacts.
Import InferenceRPUConfig.

Lemma bind_keyword_type_error (k : keyword) (b : bound) (e : exn) :
  bind_keyword k b = Raise e -> exists message, e = TypeError message.
Proof.
  unfold unexpected_keyword, multiple_values.
  destruct k as [f v | name]; [destruct f |]; cbn;
    try match goal with
      | |- context [match ?o with Some _ => _ | None => _ end] => destruct o
      end;
    intros H; inversion H; eexists; reflexivity.
Qed.

Lemma bind_keywords_type_error (kwargs : list keyword) (b : bound) (e : exn) :
  bind_keywords kwargs b = Raise e -> exists message, e = TypeError message.
Proof.
  revert b. induction kwargs as [| k rest IH]; intros b; cbn.
  - discriminate.
  - destruct (bind_keyword k b) as [b' | e'] eqn:Hk.
    + apply IH.
    + intros H. inversion H; subst. exact (bind_keyword_type_error _ _ _ Hk).
Qed.

Lemma bind_keywords_forced (kwargs : list keyword) (b : bound) :
  existsb names_forced_field kwargs = true ->
  exists e, bind_keywords kwargs b = Raise e.
Proof.
  revert b. induction kwargs as [| k rest IH]; intros b; cbn.
  - discriminate.
  - destruct (bind_keyword k b) as [b' | e'] eqn:Hk.
    + destruct (names_forced_field k) eqn:Hforced; cbn.
      * destruct k as [f v | name]; [destruct f |]; cbn in Hforced;
          try discriminate Hforced; discriminate Hk.
      * apply IH.
    + intros _. exists e'. reflexivity.
Qed.

Lemma new_type_error (F : Factories) (args : positional)
  (kwargs : list keyword) (e : exn) :
  new F args kwargs = Raise e -> exists message, e = TypeError message.
Proof.
  unfold new.
  destruct (bind_keywords kwargs (bind_positional args)) as [b | e'] eqn:Hb.
  - destruct (too_many args); intros H; inversion H. eexists; reflexivity.
  - intros H. inversion H; subst. exact (bind_keywords_type_error _ _ _ Hb).
Qed.

Lemma new_forced_fields (F : Factories) (args : positional)
  (kwargs : list keyword) (self : t) :
  new F args kwargs = Ok self ->
  device self = new_IdealDevice F /\
  backward self = perfect_io F /\
  update self = no_pulse_update F.
Proof.
  unfold new.
  destruct (bind_keywords kwargs (bind_positional args)) as [b | e].
  - destruct (too_many args); intros H; inversion H. cbn. auto.
  - discriminate.
Qed.

Lemma step_respects_read_only (s : statement) (self : t) :
  respects_read_only s = true ->
  backward (step s self) = backward self /\
  update (step s self) = update self.
Proof.
  destruct s as [f v | c]; [destruct f |]; cbn; try discriminate; auto.
Qed.

Lemma run_respects_read_only (prog : list statement) (self : t) :
  forallb respects_read_only prog = true ->
  backward (run prog self) = backward self /\
  update (run prog self) = update self.
Proof.
  unfold run. revert self.
  induction prog as [| s prog IH]; intros self; cbn; [auto |].
  intros H. apply andb_prop in H as [Hs Hprog].
  destruct (step_respects_read_only s self Hs) as [Hb Hu].
  destruct (IH (step s self) Hprog) as [Hb' Hu'].
  split; congruence.
Qed.

End InferenceFacts.

(** C1, as the code has it: whatever arguments its constructor accepted, a
    new inference configuration has [backward] equal to
    [IOParameters(is_perfect=True)] and [update] equal to
    [UpdateParameters(pulse_type=PulseType.NONE)], and both stay so across
    method calls and assignments to the other fields. The two fields are
    read-only by convention: the equalities hold as long as no statement
    assigns to [backward] or [update]. *)
Theorem inference_backward_update_fixed
  (F : Factories) (args : InferenceRPUConfig.positional)
  (kwargs : list InferenceRPUConfig.keyword) (self : InferenceRPUConfig.t)
  (prog : list InferenceRPUConfig.statement) :
  InferenceRPUConfig.new F args kwargs = Ok self ->
  forallb InferenceRPUConfig.respects_read_only prog = true ->
  InferenceRPUConfig.backward (InferenceRPUConfig.run prog self)
    = perfect_io F /\
  InferenceRPUConfig.update (InferenceRPUConfig.run prog self)
    = no_pulse_update F.
Proof.
  intros Hnew Hprog.
  destruct (InferenceFacts.new_forced_fields _ _ _ _ Hnew) as [_ [Hb Hu]].
  destruct (InferenceFacts.run_respects_read_only prog self Hprog) as [Hb' Hu'].
  split; congruence.
Qed.

Lemma inference_backward_update_fixed_example :
  InferenceRPUConfig.new example_factories
    (InferenceRPUConfig.Args1 imperfect_io)
    [InferenceRPUConfig.Keyword InferenceRPUConfig.F_clip nothing]
  = Ok example_inference /\
  forallb InferenceRPUConfig.respects_read_only example_statements = true /\
  InferenceRPUConfig.backward
    (InferenceRPUConfig.run example_statements example_inference)
  = perfect_io example_factories /\
  InferenceRPUConfig.update
    (InferenceRPUConfig.run example_statements example_inference)
  = no_pulse_update example_factories.
Proof.
  split; [reflexivity | split; [reflexivity |]].
  apply (inference_backward_update_fixed example_factories
           (InferenceRPUConfig.Args1 imperfect_io)
           [InferenceRPUConfig.Keyword InferenceRPUConfig.F_clip nothing]
           example_inference example_statements);
    reflexivity.
Defined.

(** The class is not frozen: after [self.backward = IOParameters(...)] on a
    new inference configuration, [backward] is no longer the perfect I/O
    sentinel. *)
Lemma inference_backward_assignable :
  ~ (forall (F : Factories) (args : InferenceRPUConfig.positional)
       (kwargs : list InferenceRPUConfig.keyword)
       (self : InferenceRPUConfig.t)
       (prog : list InferenceRPUConfig.statement),
       InferenceRPUConfig.new F args kwargs = Ok self ->
       InferenceRPUConfig.backward (InferenceRPUConfig.run prog self)
         = perfect_io F /\
       InferenceRPUConfig.update (InferenceRPUConfig.run prog self)
         = no_pulse_update F).
Proof.
  intros Hclaim.
  destruct (Hclaim example_factories InferenceRPUConfig.Args0 [] _
              [InferenceRPUConfig.SetAttr InferenceRPUConfig.F_backward
                 imperfect_io]
              eq_refl) as [Hbackward _].
  discriminate Hbackward.
Qed.

(** C2: a call of the inference constructor with a keyword argument
    [device], [backward] or [update] raises TypeError; and every
    configuration the constructor returns has [backward] equal to
    [IOParameters(is_perfect=True)] and [update] equal to
    [UpdateParameters(pulse_type=PulseType.NONE)]. *)
Theorem inference_constructor_rejects_forced_fields
  (F : Factories) (args : InferenceRPUConfig.positional)
  (kwargs : list InferenceRPUConfig.keyword) :
  (existsb InferenceRPUConfig.names_forced_field kwargs = true ->
   exists message,
     InferenceRPUConfig.new F args kwargs = Raise (TypeError message)) /\
  (forall self : InferenceRPUConfig.t,
     InferenceRPUConfig.new F args kwargs = Ok self ->
     InferenceRPUConfig.backward self = perfect_io F /\
     InferenceRPUConfig.update self = no_pulse_update F).
Proof.
  split.
  - intros Hforced.
    destruct (InferenceRPUConfig.new F args kwargs) as [self | e] eqn:Hnew.
    + exfalso. unfold InferenceRPUConfig.new in Hnew.
      destruct (InferenceFacts.bind_keywords_forced kwargs
                  (InferenceRPUConfig.bind_positional args) Hforced)
        as [e He].
      rewrite He in Hnew. discriminate Hnew.
    + destruct (InferenceFacts.new_type_error _ _ _ _ Hnew) as [message ->].
      exists message. reflexivity.
  - intros self Hnew.
    exact (proj2 (InferenceFacts.new_forced_fields _ _ _ _ Hnew)).
Qed.

Lemma inference_constructor_rejects_forced_fields_example :
  existsb InferenceRPUConfig.names_forced_field
    [InferenceRPUConfig.Keyword InferenceRPUConfig.F_forward plain_io;
     InferenceRPUConfig.Keyword InferenceRPUConfig.F_backward imperfect_io]
  = true /\
  exists message,
    InferenceRPUConfig.new example_factories InferenceRPUConfig.Args0
      [InferenceRPUConfig.Keyword InferenceRPUConfig.F_forward plain_io;
       InferenceRPUConfig.Keyword InferenceRPUConfig.F_backward imperfect_io]
    = Raise (TypeError message).
Proof.
  split; [reflexivity |].
  apply (proj1 (inference_constructor_rejects_forced_fields example_factories
                  InferenceRPUConfig.Args0
                  [InferenceRPUConfig.Keyword InferenceRPUConfig.F_forward
                     plain_io;
                   InferenceRPUConfig.Keyword InferenceRPUConfig.F_backward
                     imperfect_io])).
  reflexivity.
Defined.

(** * Further properties of the configurations *)

(** ** Queries of the single-device and inference configurations *)

(** X1: on every single-device configuration, [requires_diffusion] is true
    exactly when the diffusion coefficient of the device is strictly
    positive, and [requires_decay] exactly when its lifetime is. *)
Theorem single_requires_iff_positive (self : SingleRPUConfig.t) :
  (SingleRPUConfig.requires_diffusion self = true <->
   PyFloat.strictly_positive
     (PulsedDevice.diffusion (SingleRPUConfig.device self))) /\
  (SingleRPUConfig.requires_decay self = true <->
   PyFloat.strictly_positive
     (PulsedDevice.lifetime (SingleRPUConfig.device self))).
Proof.
  split; apply gt_zero_strictly_positive.
Qed.

(** X2: on every inference configuration the two queries read the [device]
    field: [requires_diffusion] is true exactly when its diffusion
    coefficient is strictly positive, [requires_decay] exactly when its
    lifetime is. *)
Theorem inference_requires_iff_positive (self : InferenceRPUConfig.t) :
  (InferenceRPUConfig.requires_diffusion self = true <->
   PyFloat.strictly_positive
     (IdealDevice.diffusion (InferenceRPUConfig.device self))) /\
  (InferenceRPUConfig.requires_decay self = true <->
   PyFloat.strictly_positive
     (IdealDevice.lifetime (InferenceRPUConfig.device self))).
Proof.
  split; apply gt_zero_strictly_positive.
Qed.

Lemma final_keeps_lifetime (prog : list SingleRPUConfig.statement)
  (self : SingleRPUConfig.t) :
  forallb keeps_lifetime prog = true ->
  PulsedDevice.lifetime (SingleRPUConfig.device (SingleRPUConfig.final prog self))
  = PulsedDevice.lifetime (SingleRPUConfig.device self).
Proof.
  unfold SingleRPUConfig.final. revert self.
  induction prog as [| s prog IH]; intros self; cbn; [reflexivity |].
  destruct s as [m | c]; cbn.
  - destruct m; cbn; try discriminate; intros H; now rewrite (IH _ H).
  - intros H. specialize (IH self H).
    now destruct (SingleRPUConfig.run prog self).
Qed.

(** X3: on a single-device configuration [requires_decay] is not cached.
    Statements that assign neither the device nor its lifetime (calls,
    assignments to the other fields and to the diffusion coefficient) leave
    its answer as it was; and after [self.device.lifetime = x], followed by
    such statements, it is true exactly when [x] is strictly positive. *)
Theorem single_requires_decay_not_cached
  (before after : list SingleRPUConfig.statement) (x : PyFloat.t)
  (self : SingleRPUConfig.t) :
  forallb keeps_lifetime after = true ->
  SingleRPUConfig.requires_decay (SingleRPUConfig.final after self)
    = SingleRPUConfig.requires_decay self /\
  (SingleRPUConfig.requires_decay
     (SingleRPUConfig.final
        (before ++
         SingleRPUConfig.Mutate (SingleRPUConfig.SetDeviceLifetime x) :: after)
        self) = true
   <-> PyFloat.strictly_positive x).
Proof.
  intros Hafter. unfold SingleRPUConfig.requires_decay. split.
  - now rewrite (final_keeps_lifetime _ _ Hafter).
  - rewrite SingleRuns.final_app.
    change (SingleRPUConfig.final
              (SingleRPUConfig.Mutate (SingleRPUConfig.SetDeviceLifetime x)
               :: after)
              (SingleRPUConfig.final before self))
      with (SingleRPUConfig.final after
              (SingleRPUConfig.mutate (SingleRPUConfig.SetDeviceLifetime x)
                 (SingleRPUConfig.final before self))).
    rewrite (final_keeps_lifetime _ _ Hafter). cbn.
    apply gt_zero_strictly_positive.
Qed.

Lemma single_requires_decay_not_cached_example :
  forallb keeps_lifetime
    [SingleRPUConfig.Mutate (SingleRPUConfig.SetDeviceDiffusion PyFloat.zero);
     SingleRPUConfig.Call AsBindings;
     SingleRPUConfig.Mutate (SingleRPUConfig.SetForward imperfect_io)] = true /\
  SingleRPUConfig.requires_decay
    (SingleRPUConfig.final
       ([SingleRPUConfig.Mutate (SingleRPUConfig.SetDevice still_device)] ++
        SingleRPUConfig.Mutate (SingleRPUConfig.SetDeviceLifetime half) ::
        [SingleRPUConfig.Mutate
           (SingleRPUConfig.SetDeviceDiffusion PyFloat.zero);
         SingleRPUConfig.Call AsBindings;
         SingleRPUConfig.Mutate (SingleRPUConfig.SetForward imperfect_io)])
       example_single) = true.
Proof.
  split; [reflexivity |].
  apply (proj2 (single_requires_decay_not_cached
                  [SingleRPUConfig.Mutate (SingleRPUConfig.SetDevice still_device)]
                  [SingleRPUConfig.Mutate
                     (SingleRPUConfig.SetDeviceDiffusion PyFloat.zero);
                   SingleRPUConfig.Call AsBindings;
                   SingleRPUConfig.Mutate (SingleRPUConfig.SetForward imperfect_io)]
                  half example_single eq_refl)).
  reflexivity.
Defined.

(** ** Queries of the unit-cell configuration *)

Lemma any_map_app {A : Type} (f : A -> bool) (l1 l2 : list A) :
  any (map f (l1 ++ l2)) = any (map f l1) || any (map f l2).
Proof.
  induction l1 as [| a l1 IH]; cbn; [reflexivity |].
  destruct (f a); [reflexivity | exact IH].
Qed.

Lemma any_map_permutation {A : Type} (f : A -> bool) (l1 l2 : list A) :
  (forall x, In x l1 <-> In x l2) ->
  any (map f l1) = any (map f l2).
Proof.
  intros Hsame.
  destruct (any (map f l1)) eqn:E1, (any (map f l2)) eqn:E2;
    try reflexivity; exfalso.
  - apply any_map_exists in E1 as [x [Hin Hx]].
    apply Hsame in Hin.
    assert (any (map f l2) = true) by (apply any_map_exists; eauto).
    congruence.
  - apply any_map_exists in E2 as [x [Hin Hx]].
    apply Hsame in Hin.
    assert (any (map f l1) = true) by (apply any_map_exists; eauto).
    congruence.
Qed.

(** X4: the queries of a unit-cell configuration depend on which
    sub-devices the unit cell holds, not on their order nor on how often
    one occurs: two unit cells with the same members answer alike. *)
Theorem unit_cell_requires_same_members
  (cell cell' : list PulsedDevice.t) (f b f' b' : IOParameters.t)
  (u u' : UpdateParameters.t) :
  (forall dev, In dev cell <-> In dev cell') ->
  UnitCellRPUConfig.requires_diffusion (unit_cell_of cell f b u)
    = UnitCellRPUConfig.requires_diffusion (unit_cell_of cell' f' b' u') /\
  UnitCellRPUConfig.requires_decay (unit_cell_of cell f b u)
    = UnitCellRPUConfig.requires_decay (unit_cell_of cell' f' b' u').
Proof.
  intros Hsame.
  unfold UnitCellRPUConfig.requires_diffusion, UnitCellRPUConfig.requires_decay.
  cbn. split; now apply any_map_permutation.
Qed.

Lemma unit_cell_requires_same_members_example :
  (forall dev,
     In dev [still_device; decaying_device] <->
     In dev [decaying_device; still_device; decaying_device]) /\
  UnitCellRPUConfig.requires_decay
    (unit_cell_of [still_device; decaying_device]
       plain_io plain_io (no_pulse_update example_factories))
  = UnitCellRPUConfig.requires_decay
      (unit_cell_of [decaying_device; still_device; decaying_device]
         imperfect_io plain_io (no_pulse_update example_factories)).
Proof.
  assert (Hsame : forall dev,
            In dev [still_device; decaying_device] <->
            In dev [decaying_device; still_device; decaying_device]).
  { intros dev. cbn. tauto. }
  split; [exact Hsame |].
  exact (proj2 (unit_cell_requires_same_members _ _ _ _ _ _ _ _ Hsame)).
Defined.

(** X5: joining two unit cells joins their answers: the queries of the
    configuration over [cell1 ++ cell2] are the disjunction of the queries
    over [cell1] and over [cell2]. Adding sub-devices never turns a true
    answer into false. *)
Theorem unit_cell_requires_append
  (cell1 cell2 : list PulsedDevice.t) (f b : IOParameters.t)
  (u : UpdateParameters.t) :
  UnitCellRPUConfig.requires_diffusion (unit_cell_of (cell1 ++ cell2) f b u)
    = UnitCellRPUConfig.requires_diffusion (unit_cell_of cell1 f b u)
      || UnitCellRPUConfig.requires_diffusion (unit_cell_of cell2 f b u) /\
  UnitCellRPUConfig.requires_decay (unit_cell_of (cell1 ++ cell2) f b u)
    = UnitCellRPUConfig.requires_decay (unit_cell_of cell1 f b u)
      || UnitCellRPUConfig.requires_decay (unit_cell_of cell2 f b u).
Proof.
  unfold UnitCellRPUConfig.requires_diffusion, UnitCellRPUConfig.requires_decay.
  cbn. split; apply any_map_app.
Qed.

(** X6: a unit-cell configuration requires diffusion (decay) exactly when
    the single-device configuration over one of its sub-devices does. *)
Theorem unit_cell_requires_iff_some_single (self : UnitCellRPUConfig.t) :
  let single dev :=
    SingleRPUConfig.mk dev (UnitCellRPUConfig.forward self)
      (UnitCellRPUConfig.backward self) (UnitCellRPUConfig.update self) in
  let cell :=
    UnitCellDevice.unit_cell_devices (UnitCellRPUConfig.device self) in
  (UnitCellRPUConfig.requires_diffusion self = true <->
   exists dev, In dev cell /\
     SingleRPUConfig.requires_diffusion (single dev) = true) /\
  (UnitCellRPUConfig.requires_decay self = true <->
   exists dev, In dev cell /\
     SingleRPUConfig.requires_decay (single dev) = true).
Proof.
  cbv zeta.
  unfold UnitCellRPUConfig.requires_diffusion, UnitCellRPUConfig.requires_decay.
  split; apply any_map_exists.
Qed.

(** ** The generated constructor of the inference configuration *)

Module InferenceCallFacts.
Import InferenceRPUConfig InferenceCall.

Lemma bind_keyword_other (name : string) (b b' : bound) :
  bind_keyword (OtherKeyword name) b = Ok b' -> False.
Proof. discriminate. Qed.

Lemma bind_keyword_inv (f : field) (v : field_type f) (b b' : bound) :
  bind_keyword (Keyword f v) b = Ok b' ->
  in_init f = true /\
  slot f b = None /\
  slot f b' = Some v /\
  forall g, g <> f -> slot g b' = slot g b.
Proof.
  unfold multiple_values, unexpected_keyword.
  destruct f; cbn in *; try discriminate;
    match goal with
    | |- context [match ?o with Some _ => _ | None => _ end] =>
        destruct o eqn:Ho
    end;
    try discriminate;
    intros H; inversion H; subst; cbn;
    (repeat split; try assumption);
    intros g Hg; destruct g; cbn; congruence.
Qed.

Lemma bind_keyword_free (f : field) (v : field_type f) (b : bound) :
  in_init f = true -> slot f b = None ->
  exists b', bind_keyword (Keyword f v) b = Ok b'.
Proof.
  destruct f; cbn in *; try discriminate;
    intros _ Hfree; rewrite Hfree; eexists; reflexivity.
Qed.

Lemma bind_keywords_succeeds (kwargs : list keyword) (b : bound) :
  (exists b', bind_keywords kwargs b = Ok b') <->
  forallb names_parameter kwargs = true /\
  NoDup (keyword_fields kwargs) /\
  (forall f, In f (keyword_fields kwargs) -> slot f b = None).
Proof.
  revert b. induction kwargs as [| k rest IH]; intros b.
  - cbn. split.
    + intros _. repeat split; [constructor | intros f []].
    + intros _. eexists; reflexivity.
  - cbn [bind_keywords forallb keyword_fields flat_map].
    destruct k as [f v | name].
    + cbn [names_parameter app]. split.
      * intros [b' Hb'].
        destruct (bind_keyword (Keyword f v) b) as [b1 | e] eqn:Hk;
          [| discriminate].
        destruct (bind_keyword_inv _ _ _ _ Hk) as [Hinit [Hfree [Hset Hframe]]].
        destruct (proj1 (IH b1) (ex_intro _ b' Hb')) as [Hall [Hnodup Hrest]].
        rewrite Hinit. cbn. split; [exact Hall |]. split.
        -- constructor; [| exact Hnodup].
           intros Hin. specialize (Hrest f Hin). congruence.
        -- intros g [<- | Hin]; [exact Hfree |].
           destruct (field_eq_dec g f) as [-> | Hneq]; [exact Hfree |].
           rewrite <- (Hframe g Hneq). exact (Hrest g Hin).
      * intros [Hall [Hnodup Hfree]].
        apply andb_prop in Hall as [Hinit Hall].
        inversion Hnodup as [| f' l Hnotin Hnodup']; subst.
        destruct (bind_keyword_free f v b Hinit (Hfree f (or_introl eq_refl)))
          as [b1 Hk].
        rewrite Hk.
        destruct (bind_keyword_inv _ _ _ _ Hk) as [_ [_ [Hset Hframe]]].
        apply IH. repeat split; [exact Hall | exact Hnodup' |].
        intros g Hin.
        destruct (field_eq_dec g f) as [-> | Hneq]; [contradiction |].
        rewrite (Hframe g Hneq). apply Hfree. right. exact Hin.
    + cbn. split.
      * intros [b' Hb']. discriminate Hb'.
      * intros [Hall _]. discriminate Hall.
Qed.

Lemma keyword_given_dec (f : field) (kwargs : list keyword) :
  (exists v, In (Keyword f v) kwargs) \/
  (forall v, ~ In (Keyword f v) kwargs).
Proof.
  induction kwargs as [| k rest IH].
  - right. intros v [].
  - destruct k as [g w | name].
    + destruct (field_eq_dec g f) as [-> | Hneq].
      * left. exists w. left. reflexivity.
      * destruct IH as [[v Hv] | Hnone].
        -- left. exists v. right. exact Hv.
        -- right. intros v [Heq | Hin]; [| exact (Hnone v Hin)].
           inversion Heq. contradiction.
    + destruct IH as [[v Hv] | Hnone].
      * left. exists v. right. exact Hv.
      * right. intros v [Heq | Hin]; [discriminate | exact (Hnone v Hin)].
Qed.

Lemma bind_keywords_slots (kwargs : list keyword) (b b' : bound) :
  bind_keywords kwargs b = Ok b' ->
  forall f,
    (forall v, In (Keyword f v) kwargs -> slot f b' = Some v) /\
    (forall v, slot f b = Some v -> slot f b' = Some v) /\
    ((forall v, ~ In (Keyword f v) kwargs) ->
     slot f b = None -> slot f b' = None).
Proof.
  revert b. induction kwargs as [| k rest IH]; intros b Hbind f.
  - cbn in Hbind. inversion Hbind; subst.
    repeat split; [intros v [] | auto | auto].
  - cbn in Hbind.
    destruct (bind_keyword k b) as [b1 | e] eqn:Hk; [| discriminate].
    destruct (IH b1 Hbind f) as [IHin [IHkeep IHnone]].
    destruct k as [g w | name]; [| discriminate Hk].
    destruct (bind_keyword_inv _ _ _ _ Hk) as [_ [Hfree [Hset Hframe]]].
    split; [| split].
    + intros v [Heq | Hin]; [| exact (IHin v Hin)].
      apply IHkeep.
      assert (Hslot :
        forall k', k' = Keyword f v ->
          match k' with
          | Keyword g' w' => slot g' b1 = Some w' -> slot f b1 = Some v
          | OtherKeyword _ => True
          end).
      { intros k' ->. auto. }
      exact (Hslot (Keyword g w) Heq Hset).
    + intros v Hv. apply IHkeep.
      destruct (field_eq_dec f g) as [-> | Hneq]; [congruence |].
      rewrite (Hframe f Hneq). exact Hv.
    + intros Hnone Hb. apply IHnone.
      * intros v Hin. apply (Hnone v). right. exact Hin.
      * destruct (field_eq_dec f g) as [-> | Hneq].
        -- exfalso. apply (Hnone w). left. reflexivity.
        -- rewrite (Hframe f Hneq). exact Hb.
Qed.

Lemma too_many_count (args : positional) :
  too_many args = false <-> (positional_count args <= 5)%nat.
Proof.
  destruct args; cbn; split; intros H; try reflexivity; try lia;
    discriminate.
Qed.

Lemma slot_positional (f : field) (args : positional) :
  slot f (bind_positional args) = None <-> ~ In f (bound_by_position args).
Proof.
  destruct args, f; cbn; split; intros H; try reflexivity;
    try discriminate H;
    try (intros Hin;
         repeat (destruct Hin as [Hin | Hin]; [discriminate Hin |]);
         exact Hin);
    exfalso; apply H; tauto.
Qed.

Lemma new_inv (F : Factories) (args : positional) (kwargs : list keyword)
  (self : t) :
  new F args kwargs = Ok self <->
  too_many args = false /\
  exists b,
    bind_keywords kwargs (bind_positional args) = Ok b /\
    self =
      mk (or_default (slot F_forward b) (default_factory F F_forward))
        (or_default (slot F_noise_model b) (default_factory F F_noise_model))
        (or_default (slot F_drift_compensation b)
           (default_factory F F_drift_compensation))
        (or_default (slot F_clip b) (default_factory F F_clip))
        (or_default (slot F_modifier b) (default_factory F F_modifier))
        (default_factory F F_device)
        (default_factory F F_backward)
        (default_factory F F_update).
Proof.
  unfold new.
  destruct (bind_keywords kwargs (bind_positional args)) as [b | e].
  - destruct (too_many args); split.
    + discriminate.
    + intros [H _]. discriminate H.
    + intros H. inversion H. split; [reflexivity |].
      exists b. split; reflexivity.
    + intros [_ [b' [Hb' ->]]]. inversion Hb'. reflexivity.
  - split; [discriminate |]. intros [_ [b [Hb _]]]. discriminate Hb.
Qed.

Lemma new_getattr (F : Factories) (args : positional)
  (kwargs : list keyword) (self : t) :
  new F args kwargs = Ok self ->
  exists b,
    bind_keywords kwargs (bind_positional args) = Ok b /\
    forall f, getattr f self = or_default (slot f b) (default_factory F f).
Proof.
  intros Hnew. apply new_inv in Hnew as [_ [b [Hb ->]]].
  exists b. split; [exact Hb |].
  intros f. destruct f; reflexivity.
Qed.

Lemma getattr_ext (self self' : t) :
  (forall f, getattr f self = getattr f self') -> self = self'.
Proof.
  intros H. destruct self, self'.
  pose proof (H F_forward). pose proof (H F_noise_model).
  pose proof (H F_drift_compensation). pose proof (H F_clip).
  pose proof (H F_modifier). pose proof (H F_device).
  pose proof (H F_backward). pose proof (H F_update).
  cbn in *. congruence.
Qed.

End InferenceCallFacts.

(** X7: the constructor of the inference configuration returns an instance
    exactly when the call gives at most five positional arguments, every
    keyword names one of the five parameters, no keyword occurs twice and
    no keyword names a parameter that a positional argument already fills.
    Every other call raises TypeError. *)
Theorem inference_constructor_accepts_iff
  (F : Factories) (args : InferenceRPUConfig.positional)
  (kwargs : list InferenceRPUConfig.keyword) :
  (succeeds (InferenceRPUConfig.new F args kwargs) <->
   (InferenceCall.positional_count args <= 5)%nat /\
   forallb InferenceCall.names_parameter kwargs = true /\
   NoDup (InferenceCall.keyword_fields kwargs) /\
   (forall f, In f (InferenceCall.keyword_fields kwargs) ->
              ~ In f (InferenceCall.bound_by_position args))) /\
  (forall e, InferenceRPUConfig.new F args kwargs = Raise e ->
             exists message, e = TypeError message).
Proof.
  split; [| intros e; apply InferenceFacts.new_type_error].
  unfold succeeds. split.
  - intros [self Hnew].
    apply InferenceCallFacts.new_inv in Hnew as [Hcount [b [Hb _]]].
    apply InferenceCallFacts.too_many_count in Hcount.
    destruct (proj1 (InferenceCallFacts.bind_keywords_succeeds _ _)
                (ex_intro _ b Hb)) as [Hall [Hnodup Hfree]].
    repeat split; try assumption.
    intros f Hin. apply InferenceCallFacts.slot_positional. now apply Hfree.
  - intros [Hcount [Hall [Hnodup Hfree]]].
    destruct (proj2 (InferenceCallFacts.bind_keywords_succeeds kwargs
                       (InferenceRPUConfig.bind_positional args)))
      as [b Hb].
    { repeat split; try assumption.
      intros f Hin. apply InferenceCallFacts.slot_positional. now apply Hfree. }
    eexists. apply InferenceCallFacts.new_inv.
    split; [now apply InferenceCallFacts.too_many_count |].
    exists b. split; [exact Hb | reflexivity].
Qed.



(** X9: the order of the keyword arguments does not matter: a call that
    returns an instance returns the same instance when its keywords are
    given in another order. *)
Theorem inference_constructor_keyword_order
  (F : Factories) (args : InferenceRPUConfig.positional)
  (kwargs kwargs' : list InferenceRPUConfig.keyword)
  (self : InferenceRPUConfig.t) :
  Permutation kwargs kwargs' ->
  InferenceRPUConfig.new F args kwargs = Ok self ->
  InferenceRPUConfig.new F args kwargs' = Ok self.
Proof.
  intros Hperm Hnew.
  pose proof Hnew as Hinv.
  apply InferenceCallFacts.new_inv in Hinv as [Hcount [b [Hb _]]].
  destruct (proj1 (InferenceCallFacts.bind_keywords_succeeds _ _)
              (ex_intro _ b Hb)) as [Hall [Hnodup Hfree]].
  assert (Hfields :
    Permutation (InferenceCall.keyword_fields kwargs)
      (InferenceCall.keyword_fields kwargs')).
  { unfold InferenceCall.keyword_fields. now rewrite Hperm. }
  destruct (proj2 (InferenceCallFacts.bind_keywords_succeeds kwargs'
                     (InferenceRPUConfig.bind_positional args)))
    as [b' Hb'].
  { split; [| split].
    - apply forallb_forall. intros k Hk.
      apply (proj1 (forallb_forall _ _) Hall).
      apply (Permutation_in _ (Permutation_sym Hperm) Hk).
    - exact (Permutation_NoDup Hfields Hnodup).
    - intros f Hin. apply Hfree.
      exact (Permutation_in _ (Permutation_sym Hfields) Hin). }
  assert (Hnew' :
    exists self', InferenceRPUConfig.new F args kwargs' = Ok self').
  { eexists. apply InferenceCallFacts.new_inv.
    split; [exact Hcount |]. exists b'. split; [exact Hb' | reflexivity]. }
  destruct Hnew' as [self' Hnew'].
  rewrite Hnew'. f_equal.
  apply InferenceCallFacts.getattr_ext. intros f.
  destruct (InferenceCallFacts.new_getattr _ _ _ _ Hnew) as [c [Hc Hget]].
  destruct (InferenceCallFacts.new_getattr _ _ _ _ Hnew') as [c' [Hc' Hget']].
  rewrite Hget, Hget'. f_equal.
  destruct (InferenceCallFacts.bind_keywords_slots _ _ _ Hc f)
    as [Hin [Hkeep Hnone]].
  destruct (InferenceCallFacts.bind_keywords_slots _ _ _ Hc' f)
    as [Hin' [Hkeep' Hnone']].
  destruct (InferenceCallFacts.keyword_given_dec f kwargs) as [[v Hv] | Hno].
  - rewrite (Hin v Hv).
    now rewrite (Hin' v (Permutation_in _ Hperm Hv)).
  - destruct (InferenceCall.slot f (InferenceRPUConfig.bind_positional args))
      as [v |] eqn:Hpos.
    + now rewrite (Hkeep v eq_refl), (Hkeep' v eq_refl).
    + rewrite (Hnone' ), (Hnone Hno eq_refl); [reflexivity | | reflexivity].
      intros v Hv. apply (Hno v).
      exact (Permutation_in _ (Permutation_sym Hperm) Hv).
Qed.

Lemma inference_constructor_accepts_iff_example :
  InferenceRPUConfig.new example_factories
    (InferenceRPUConfig.ArgsMore plain_io nothing nothing nothing nothing 0) []
  = Raise (TypeError "too many positional arguments") /\
  exists message,
    TypeError "too many positional arguments" = TypeError message.
Proof.
  assert (Hnew :
    InferenceRPUConfig.new example_factories
      (InferenceRPUConfig.ArgsMore plain_io nothing nothing nothing nothing 0)
      []
    = Raise (TypeError "too many positional arguments")) by reflexivity.
  split; [exact Hnew |].
  exact (proj2 (inference_constructor_accepts_iff _ _ _) _ Hnew).
Defined.

Lemma inference_constructor_keyword_order_example :
  Permutation
    [InferenceRPUConfig.Keyword InferenceRPUConfig.F_clip nothing;
     InferenceRPUConfig.Keyword InferenceRPUConfig.F_forward imperfect_io]
    [InferenceRPUConfig.Keyword InferenceRPUConfig.F_forward imperfect_io;
     InferenceRPUConfig.Keyword InferenceRPUConfig.F_clip nothing] /\
  InferenceRPUConfig.new example_factories InferenceRPUConfig.Args0
    [InferenceRPUConfig.Keyword InferenceRPUConfig.F_forward imperfect_io;
     InferenceRPUConfig.Keyword InferenceRPUConfig.F_clip nothing]
  = Ok example_inference.
Proof.
  assert (Hperm :
    Permutation
      [InferenceRPUConfig.Keyword InferenceRPUConfig.F_clip nothing;
       InferenceRPUConfig.Keyword InferenceRPUConfig.F_forward imperfect_io]
      [InferenceRPUConfig.Keyword InferenceRPUConfig.F_forward imperfect_io;
       InferenceRPUConfig.Keyword InferenceRPUConfig.F_clip nothing])
    by apply perm_swap.
  split; [exact Hperm |].
  apply (inference_constructor_keyword_order example_factories
           InferenceRPUConfig.Args0 _ _ example_inference Hperm).
  reflexivity.
Defined.

(** ** Queries of the inference configuration across assignments *)

Lemma inference_run_app (p q : list InferenceRPUConfig.statement)
  (self : InferenceRPUConfig.t) :
  InferenceRPUConfig.run (p ++ q) self
  = InferenceRPUConfig.run q (InferenceRPUConfig.run p self).
Proof.
  unfold InferenceRPUConfig.run. apply fold_left_app.
Qed.

Lemma inference_run_keeps_device (prog : list InferenceRPUConfig.statement)
  (self : InferenceRPUConfig.t) :
  forallb InferenceCall.keeps_device prog = true ->
  InferenceRPUConfig.device (InferenceRPUConfig.run prog self)
  = InferenceRPUConfig.device self.
Proof.
  unfold InferenceRPUConfig.run. revert self.
  induction prog as [| s prog IH]; intros self; cbn; [reflexivity |].
  intros H. apply andb_prop in H as [Hs Hprog].
  rewrite (IH _ Hprog).
  destruct s as [f v | c]; [destruct f |]; cbn in *;
    reflexivity || discriminate.
Qed.

(** X10: an inference configuration whose [device] was never assigned
    answers for the ideal device of the default factory, whatever arguments
    the constructor received and whatever other fields were assigned
    since. *)
Theorem inference_requires_of_ideal_device
  (F : Factories) (args : InferenceRPUConfig.positional)
  (kwargs : list InferenceRPUConfig.keyword) (self : InferenceRPUConfig.t)
  (prog : list InferenceRPUConfig.statement) :
  InferenceRPUConfig.new F args kwargs = Ok self ->
  forallb InferenceCall.keeps_device prog = true ->
  InferenceRPUConfig.requires_diffusion (InferenceRPUConfig.run prog self)
    = PyFloat.gt (IdealDevice.diffusion (new_IdealDevice F)) PyFloat.zero /\
  InferenceRPUConfig.requires_decay (InferenceRPUConfig.run prog self)
    = PyFloat.gt (IdealDevice.lifetime (new_IdealDevice F)) PyFloat.zero.
Proof.
  intros Hnew Hprog.
  unfold InferenceRPUConfig.requires_diffusion, InferenceRPUConfig.requires_decay.
  rewrite (inference_run_keeps_device _ _ Hprog).
  destruct (InferenceFacts.new_forced_fields _ _ _ _ Hnew) as [-> _].
  split; reflexivity.
Qed.

Lemma inference_requires_of_ideal_device_example :
  InferenceRPUConfig.new example_factories
    (InferenceRPUConfig.Args1 imperfect_io)
    [InferenceRPUConfig.Keyword InferenceRPUConfig.F_clip nothing]
  = Ok example_inference /\
  InferenceRPUConfig.requires_diffusion
    (InferenceRPUConfig.run
       [InferenceRPUConfig.SetAttr InferenceRPUConfig.F_backward imperfect_io;
        InferenceRPUConfig.Call RequiresDecay]
       example_inference)
  = false.
Proof.
  split; [reflexivity |].
  apply (proj1 (inference_requires_of_ideal_device example_factories
                  (InferenceRPUConfig.Args1 imperfect_io)
                  [InferenceRPUConfig.Keyword InferenceRPUConfig.F_clip nothing]
                  example_inference
                  [InferenceRPUConfig.SetAttr InferenceRPUConfig.F_backward
                     imperfect_io;
                   InferenceRPUConfig.Call RequiresDecay]
                  eq_refl eq_refl)).
Defined.

(** X11: the queries of the inference configuration are not hard-wired to
    false: after [self.device = d], followed by statements that do not
    assign [device], [requires_diffusion] is true exactly when the
    diffusion coefficient of [d] is strictly positive, and [requires_decay]
    exactly when its lifetime is. *)
Theorem inference_requires_follow_device
  (before after : list InferenceRPUConfig.statement) (d : IdealDevice.t)
  (self : InferenceRPUConfig.t) :
  forallb InferenceCall.keeps_device after = true ->
  let final :=
    InferenceRPUConfig.run
      (before ++
       InferenceRPUConfig.SetAttr InferenceRPUConfig.F_device d :: after)
      self in
  (InferenceRPUConfig.requires_diffusion final = true <->
   PyFloat.strictly_positive (IdealDevice.diffusion d)) /\
  (InferenceRPUConfig.requires_decay final = true <->
   PyFloat.strictly_positive (IdealDevice.lifetime d)).
Proof.
  intros Hafter final.
  assert (Hdevice : InferenceRPUConfig.device final = d).
  { unfold final. rewrite inference_run_app.
    change (InferenceRPUConfig.run
              (InferenceRPUConfig.SetAttr InferenceRPUConfig.F_device d
               :: after)
              (InferenceRPUConfig.run before self))
      with (InferenceRPUConfig.run after
              (InferenceRPUConfig.setattr InferenceRPUConfig.F_device d
                 (InferenceRPUConfig.run before self))).
    now rewrite (inference_run_keeps_device _ _ Hafter). }
  unfold InferenceRPUConfig.requires_diffusion, InferenceRPUConfig.requires_decay.
  rewrite Hdevice. split; apply gt_zero_strictly_positive.
Qed.

Lemma inference_requires_follow_device_example :
  forallb InferenceCall.keeps_device
    [InferenceRPUConfig.SetAttr InferenceRPUConfig.F_forward plain_io] = true /\
  InferenceRPUConfig.requires_diffusion
    (InferenceRPUConfig.run
       ([InferenceRPUConfig.Call AsBindings] ++
        InferenceRPUConfig.SetAttr InferenceRPUConfig.F_device
          (IdealDevice.mk half PyFloat.zero) ::
        [InferenceRPUConfig.SetAttr InferenceRPUConfig.F_forward plain_io])
       example_inference)
  = true.
Proof.
  split; [reflexivity |].
  apply (proj1 (inference_requires_follow_device
                  [InferenceRPUConfig.Call AsBindings]
                  [InferenceRPUConfig.SetAttr InferenceRPUConfig.F_forward
                     plain_io]
                  (IdealDevice.mk half PyFloat.zero)
                  example_inference eq_refl)).
  reflexivity.
Defined.
